(** * Convergence monitors of hmmlearn ([hmmlearn/monitors.py])

    A shallow embedding of the three monitor classes
    ([ConvergenceMonitor], [RelativeMonitor], [ThresholdMonitor]) and of
    the methods they inherit from [_BaseMonitor], followed by the
    properties of the monitor protocol.

    Log probabilities and the tolerance are Python [float]s, that is IEEE
    binary64 numbers: they are modelled by Rocq's primitive floats, whose
    subtraction, division and comparisons are the IEEE ones Python uses.
    Iteration counts are Python [int]s, modelled by [Z]. *)

From Stdlib Require Import ZArith List Bool String Lia.
From Stdlib Require Import Floats.PrimFloat Floats.SpecFloat Floats.FloatOps Floats.FloatAxioms.
Import ListNotations.

(* Decimal literals such as 0.001 are rounded to the nearest binary64
   value, exactly as the Python parser rounds them. *)
Set Warnings "-inexact-float".

Local Open Scope Z_scope.

(** ** Exceptions and outcomes of a call *)

Module Py.

Inductive exn : Type :=
| AttributeError
| IndexError
| TypeError
| ValueError
| ZeroDivisionError.

(** A call either returns a value or raises. *)
Inductive outcome (A : Type) : Type :=
| Return (a : A)
| Raise (e : exn).
Arguments Return {A} a.
Arguments Raise {A} e.

Definition obind {A B : Type} (o : outcome A) (k : A -> outcome B) : outcome B :=
  match o with
  | Return a => k a
  | Raise e => Raise e
  end.

Definition returns {A : Type} (o : outcome A) : bool :=
  match o with
  | Return _ => true
  | Raise _ => false
  end.

(** The Python objects that flow through the monitor's attributes and
    through the result of [converged]. *)
Inductive pyval : Type :=
| VBool (b : bool)
| VInt (z : Z)
| VFloat (f : float)
| VDeque (d : list float).

(** [bool(v)]: the truth value Python gives to an object. *)
Definition truthy (v : pyval) : bool :=
  match v with
  | VBool b => b
  | VInt z => negb (z =? 0)
  | VFloat f => negb (PrimFloat.eqb f 0%float)
  | VDeque d => match d with [] => false | _ :: _ => true end
  end.

(** [a and b]: [b] is evaluated only when [a] is true, and the value is
    the operand that decided, not its truth value. *)
Definition py_and (a : outcome pyval) (b : unit -> outcome pyval) : outcome pyval :=
  obind a (fun va => if truthy va then b tt else Return va).

(** [a or b]: [b] is evaluated only when [a] is false. *)
Definition py_or (a : outcome pyval) (b : unit -> outcome pyval) : outcome pyval :=
  obind a (fun va => if truthy va then Return va else b tt).

(** [x / y] on floats raises when the divisor compares equal to zero
    (so for [0.0] and [-0.0]). *)
Definition float_div (x y : float) : outcome float :=
  if PrimFloat.eqb y 0%float then Raise ZeroDivisionError
  else Return (PrimFloat.div x y).

(** [x >= y] on floats. *)
Definition float_ge (x y : float) : bool := PrimFloat.leb y x.

End Py.
Export Py.

Notation "x <~ c ;; k" := (obind c (fun x => k))
  (at level 61, c at next level, right associativity).

(** ** [collections.deque] with [maxlen=2] *)

Module Deque.

(** Every deque of this program is created by [deque(maxlen=2)]. *)
Definition maxlen : nat := 2.

Definition t : Type := list float.

Definition new : t := [].

(** [d.append(x)]: the item is added on the right, and a deque that
    became longer than [maxlen] drops its leftmost item. *)
Definition append (d : t) (x : float) : t :=
  let d' := (d ++ [x])%list in
  if (maxlen <? List.length d')%nat then List.tl d' else d'.

Definition clear (d : t) : t := [].

Definition len (d : t) : Z := Z.of_nat (List.length d).

(** [d[i]], with Python's negative indices. *)
Definition getitem (d : t) (i : Z) : outcome float :=
  let j := if i <? 0 then i + len d else i in
  if (j <? 0) || (len d <=? j) then Raise IndexError
  else match nth_error d (Z.to_nat j) with
       | Some x => Return x
       | None => Raise IndexError
       end.

(** [a, b = d]: unpacking into two names. *)
Definition unpack2 (d : t) : outcome (float * float) :=
  match d with
  | [a; b] => Return (a, b)
  | _ => Raise ValueError
  end.

End Deque.

(** ** The monitor object *)

(** The concrete subclasses of [_BaseMonitor]; the base class is abstract
    and cannot be instantiated. *)
Inductive monitor_class : Type :=
| ConvergenceMonitor
| RelativeMonitor
| ThresholdMonitor.

(** The instance attributes set by [__init__]. *)
Record Monitor : Type := mkMonitor {
  cls : monitor_class;
  tol : float;
  n_iter : Z;
  verbose : bool;
  history : Deque.t;
  iter : Z
}.

(** One progress record written to [sys.stderr]: the three values that
    [_template] formats (the rendering to text is not modelled). *)
Record progress : Type := mkProgress {
  line_iter : Z;
  line_logprob : float;
  line_delta : float
}.

(** The state a method call acts on: the monitor and what has been
    printed to [sys.stderr] so far. *)
Record state : Type := mkState {
  mon : Monitor;
  stderr : list progress
}.

(** Methods that mutate the monitor or print: a state and exception
    monad.  The state survives a raised exception. *)
Definition M (A : Type) : Type := state -> outcome A * state.

Definition ret {A : Type} (a : A) : M A := fun s => (Return a, s).

Definition lift {A : Type} (o : outcome A) : M A := fun s => (o, s).

Definition bind {A B : Type} (m : M A) (k : A -> M B) : M B :=
  fun s => match m s with
           | (Return a, s') => k a s'
           | (Raise e, s') => (Raise e, s')
           end.

Notation "x <- c ;; k" := (bind c (fun x => k))
  (at level 61, c at next level, right associativity).
Notation "c ;;; k" := (bind c (fun _ => k))
  (at level 61, right associativity).

Definition get_self : M Monitor := fun s => (Return (mon s), s).

Definition set_history (h : Deque.t) : M unit :=
  fun s => (Return tt,
            {| mon := {| cls := cls (mon s); tol := tol (mon s);
                         n_iter := n_iter (mon s); verbose := verbose (mon s);
                         history := h; iter := iter (mon s) |};
               stderr := stderr s |}).

Definition set_iter (i : Z) : M unit :=
  fun s => (Return tt,
            {| mon := {| cls := cls (mon s); tol := tol (mon s);
                         n_iter := n_iter (mon s); verbose := verbose (mon s);
                         history := history (mon s); iter := i |};
               stderr := stderr s |}).

(** [print(message, file=sys.stderr)] *)
Definition print (p : progress) : M unit :=
  fun s => (Return tt, {| mon := mon s; stderr := (stderr s ++ [p])%list |}).

(** [self.<name>] for the data attributes of a monitor.  The instance
    dictionary holds [tol], [n_iter], [verbose], [history] and [iter];
    every other name of this kind is missing. *)
Definition getattr (self : Monitor) (name : string) : outcome pyval :=
  if String.eqb name "tol" then Return (VFloat (tol self))
  else if String.eqb name "n_iter" then Return (VInt (n_iter self))
  else if String.eqb name "verbose" then Return (VBool (verbose self))
  else if String.eqb name "history" then Return (VDeque (history self))
  else if String.eqb name "iter" then Return (VInt (iter self))
  else Raise AttributeError.

(** [v[i]] where a float is expected. *)
Definition subscript (v : pyval) (i : Z) : outcome float :=
  match v with
  | VDeque d => Deque.getitem d i
  | _ => Raise TypeError
  end.

(** ** [_BaseMonitor] *)

(** [__init__(self, tol, n_iter, verbose)] of the class [c]. *)
Definition __init__ (c : monitor_class) (tol0 : float) (n_iter0 : Z)
    (verbose0 : bool) : outcome Monitor :=
  Return {| cls := c; tol := tol0; n_iter := n_iter0; verbose := verbose0;
            history := Deque.new; iter := 0 |}.

(** [_reset(self)] *)
Definition _reset : M unit :=
  set_iter 0 ;;;
  self <- get_self ;;
  set_history (Deque.clear (history self)).

(** [report(self, logprob)] *)
Definition report (logprob : float) : M unit :=
  self <- get_self ;;
  (if verbose self then
     prev_logprob <-
       (if truthy (VDeque (history self))
        then lift (histor <~ getattr self "histor" ;; subscript histor (-1))
        else ret PrimFloat.nan) ;;
     let delta := PrimFloat.sub logprob prev_logprob in
     print {| line_iter := iter self + 1;
              line_logprob := logprob;
              line_delta := delta |}
   else ret tt) ;;;
  self <- get_self ;;
  set_history (Deque.append (history self) logprob) ;;;
  self <- get_self ;;
  set_iter (iter self + 1).

(** [_check_convergence(self)], as each subclass overrides it. *)
Definition _check_convergence (self : Monitor) : outcome pyval :=
  match cls self with
  | ConvergenceMonitor =>
      py_and (Return (VBool (Deque.len (history self) =? 2)))
             (fun _ =>
                h1 <~ Deque.getitem (history self) 1 ;;
                h0 <~ Deque.getitem (history self) 0 ;;
                Return (VBool (PrimFloat.ltb (PrimFloat.sub h1 h0) (tol self))))
  | RelativeMonitor =>
      if negb (Deque.len (history self) =? 2) then Return (VBool false)
      else
        pc <~ Deque.unpack2 (history self) ;;
        let '(previous, current) := pc in
        q <~ float_div (PrimFloat.sub current previous) previous ;;
        Return (VBool (PrimFloat.ltb q (tol self)))
  | ThresholdMonitor =>
      py_and (Return (VDeque (history self)))
             (fun _ =>
                last <~ Deque.getitem (history self) (-1) ;;
                Return (VBool (float_ge last (tol self))))
  end.

(** The property [converged]. *)
Definition converged (self : Monitor) : outcome pyval :=
  py_or (Return (VBool (iter self =? n_iter self)))
        (fun _ => _check_convergence self).

(** ** Running a monitor *)

(** The state right after construction; [err] is what [sys.stderr]
    already holds. *)
Definition started (self : Monitor) (err : list progress) : state :=
  {| mon := self; stderr := err |}.

(** The caller's loop body repeated: one [report] per value, in order.
    An exception ends the run. *)
Fixpoint report_all (vs : list float) : M unit :=
  match vs with
  | [] => ret tt
  | v :: vs' => report v ;;; report_all vs'
  end.

(** The states observed after each call of [report], for a caller that
    carries on when a call raises. *)
Fixpoint states_after (vs : list float) (s : state) : list state :=
  match vs with
  | [] => []
  | v :: vs' => let s' := snd (report v s) in s' :: states_after vs' s'
  end.

(** What a call [report(v)] is meant to leave in the monitor: the value
    appended to the history and the counter advanced. *)
Definition recorded (v : float) (self : Monitor) : Monitor :=
  {| cls := cls self; tol := tol self; n_iter := n_iter self;
     verbose := verbose self;
     history := Deque.append (history self) v;
     iter := iter self + 1 |}.

(** The states a caller can bring a monitor into through the public
    methods. *)
Inductive reachable : state -> Prop :=
| reach_init c t n vb self err :
    __init__ c t n vb = Return self -> reachable (started self err)
| reach_report v s :
    reachable s -> reachable (snd (report v s))
| reach_reset s :
    reachable s -> reachable (snd (_reset s)).

(** ** Sample monitors and runs *)

(** A mute absolute-gain monitor, as built by
    [ConvergenceMonitor(0.5, 10, False)]. *)
Definition quiet_monitor : Monitor :=
  {| cls := ConvergenceMonitor; tol := 0.5%float; n_iter := 10;
     verbose := false; history := Deque.new; iter := 0 |}.

(** The same monitor built with [verbose=True]. *)
Definition verbose_monitor : Monitor :=
  {| cls := ConvergenceMonitor; tol := 0.5%float; n_iter := 10;
     verbose := true; history := Deque.new; iter := 0 |}.

(** A mute relative-gain monitor with [n_iter = 3]. *)
Definition relative_monitor_3 : Monitor :=
  {| cls := RelativeMonitor; tol := 0.1%float; n_iter := 3;
     verbose := false; history := Deque.new; iter := 0 |}.

(** A mute absolute-gain monitor with [n_iter = 2]. *)
Definition quiet_monitor_2 : Monitor :=
  {| cls := ConvergenceMonitor; tol := 0.5%float; n_iter := 2;
     verbose := false; history := Deque.new; iter := 0 |}.

(** [ConvergenceMonitor(100.0, 3, True)] and the same monitor built with
    [verbose=False]. *)
Definition verbose_monitor_3 : Monitor :=
  {| cls := ConvergenceMonitor; tol := 100%float; n_iter := 3;
     verbose := true; history := Deque.new; iter := 0 |}.

Definition mute_monitor_3 : Monitor :=
  {| cls := ConvergenceMonitor; tol := 100%float; n_iter := 3;
     verbose := false; history := Deque.new; iter := 0 |}.

(** [ConvergenceMonitor(0.5, 1, True)] and the same monitor built with
    [verbose=False]. *)
Definition verbose_monitor_1 : Monitor :=
  {| cls := ConvergenceMonitor; tol := 0.5%float; n_iter := 1;
     verbose := true; history := Deque.new; iter := 0 |}.

Definition mute_monitor_1 : Monitor :=
  {| cls := ConvergenceMonitor; tol := 0.5%float; n_iter := 1;
     verbose := false; history := Deque.new; iter := 0 |}.

(** [relative_monitor_3] after [report(5.0)], [report(0.0)],
    [report(1.0)]. *)
Definition relative_run : state :=
  snd (report_all [5; 0; 1]%float (started relative_monitor_3 [])).

(** [quiet_monitor_2] after [report(1.0)], [report(2.0)], and after one
    more call [report(3.0)]. *)
Definition quiet_run_2 : state :=
  snd (report_all [1; 2]%float (started quiet_monitor_2 [])).

Definition quiet_run_3 : state := snd (report 3%float quiet_run_2).

(** [verbose_monitor] and [quiet_monitor] after [report(1.0)]. *)
Definition verbose_run_1 : state :=
  snd (report 1%float (started verbose_monitor [])).

Definition quiet_run_1 : state :=
  snd (report 1%float (started quiet_monitor [])).

(** ** Sequences of calls *)

(** The two mutating methods a caller can invoke. *)
Inductive call : Type :=
| CallReport (v : float)
| CallReset.

(** One call, for a caller that carries on when the call raises. *)
Definition perform (c : call) (s : state) : state :=
  match c with
  | CallReport v => snd (report v s)
  | CallReset => snd (_reset s)
  end.

Definition perform_all (cs : list call) (s : state) : state :=
  List.fold_left (fun s' c => perform c s') cs s.

(** The last two elements of a list (the whole list when it is
    shorter). *)
Definition last2 (l : list float) : list float :=
  List.skipn (List.length l - 2) l.

(** The values passed to [report] since the last [_reset] (or since
    the start), oldest first. *)
Definition note_call (acc : list float) (c : call) : list float :=
  match c with
  | CallReport v => (acc ++ [v])%list
  | CallReset => []
  end.

Definition values_since_reset (cs : list call) : list float :=
  List.fold_left note_call cs [].

(** Two monitors with the same class and constructor arguments. *)
Definition same_config (m m' : Monitor) : Prop :=
  cls m = cls m' /\ tol m = tol m' /\ n_iter m = n_iter m' /\
  verbose m = verbose m'.

(** * Properties *)

(** ** The deque *)

Section DequeFacts.

Lemma append_length_le (d : Deque.t) (x : float) :
  (List.length d <= Deque.maxlen)%nat ->
  (List.length (Deque.append d x) <= Deque.maxlen)%nat.
Proof.
  unfold Deque.append, Deque.maxlen.
  destruct d as [|a [|b [|c d]]]; cbn; lia.
Qed.

Lemma append_not_full (d : Deque.t) (x : float) :
  (List.length d < Deque.maxlen)%nat ->
  Deque.append d x = (d ++ [x])%list.
Proof.
  unfold Deque.append, Deque.maxlen.
  destruct d as [|a [|b d]]; cbn; intros; try reflexivity; lia.
Qed.

Lemma append_full (a b x : float) :
  Deque.append [a; b] x = [b; x].
Proof. reflexivity. Qed.

End DequeFacts.

(** ** [report] *)

Section ReportFacts.

Variable v : float.
Variable s : state.

(** A mute monitor records the value and prints nothing. *)
Lemma report_quiet :
  verbose (mon s) = false ->
  report v s = (Return tt, {| mon := recorded v (mon s); stderr := stderr s |}).
Proof.
  destruct s as [[c t n vb h i] err]; cbn; intros ->.
  reflexivity.
Qed.

(** The first verbose call prints a record whose delta is computed from
    NaN, then records the value. *)
Lemma report_verbose_first :
  verbose (mon s) = true -> history (mon s) = [] ->
  report v s =
    (Return tt,
     {| mon := recorded v (mon s);
        stderr := (stderr s ++
                   [{| line_iter := iter (mon s) + 1;
                       line_logprob := v;
                       line_delta := PrimFloat.sub v PrimFloat.nan |}])%list |}).
Proof.
  destruct s as [[c t n vb h i] err]; cbn; intros -> ->.
  reflexivity.
Qed.

(** A verbose call on a monitor that already holds a value looks up the
    attribute [histor], which no monitor has: the call raises before it
    prints or records anything. *)
Lemma report_verbose_later :
  verbose (mon s) = true -> history (mon s) <> [] ->
  report v s = (Raise AttributeError, s).
Proof.
  destruct s as [[c t n vb h i] err]; cbn; intros -> Hh.
  destruct h as [|a h]; [congruence|].
  reflexivity.
Qed.

(** Whenever the call returns, the monitor holds what it should. *)
Lemma report_returns_recorded (s' : state) :
  report v s = (Return tt, s') -> mon s' = recorded v (mon s).
Proof.
  destruct (verbose (mon s)) eqn:Hv.
  - destruct (history (mon s)) as [|a h] eqn:Hh.
    + rewrite (report_verbose_first Hv Hh). intros [= <-]. reflexivity.
    + rewrite report_verbose_later; [discriminate | exact Hv | congruence].
  - rewrite (report_quiet Hv). intros [= <-]. reflexivity.
Qed.

(** Whatever the call does, the monitor is either left as it was or
    holds the recorded value; the configuration never changes. *)
Lemma report_mon_cases :
  mon (snd (report v s)) = mon s \/ mon (snd (report v s)) = recorded v (mon s).
Proof.
  destruct (verbose (mon s)) eqn:Hv.
  - destruct (history (mon s)) as [|a h] eqn:Hh.
    + right. rewrite (report_verbose_first Hv Hh). reflexivity.
    + left. rewrite report_verbose_later; [reflexivity | exact Hv | congruence].
  - right. rewrite (report_quiet Hv). reflexivity.
Qed.

End ReportFacts.

(** ** Runs of [report] *)

Section RunFacts.

(** A run that returns has recorded every value: the counter advanced
    by the number of calls and the configuration is untouched. *)
Lemma report_all_returns (vs : list float) :
  forall s s', report_all vs s = (Return tt, s') ->
    iter (mon s') = iter (mon s) + Z.of_nat (List.length vs) /\
    n_iter (mon s') = n_iter (mon s) /\
    cls (mon s') = cls (mon s) /\
    tol (mon s') = tol (mon s) /\
    verbose (mon s') = verbose (mon s).
Proof.
  induction vs as [|v vs IH]; intros s s'.
  - cbn. intros [= <-]. repeat split; lia.
  - cbn [report_all]. unfold bind at 1.
    destruct (report v s) as [[[]|e] s1] eqn:Hr; [|discriminate].
    intros Hrest. apply IH in Hrest.
    apply report_returns_recorded in Hr.
    destruct Hrest as (Hi & Hn & Hc & Ht & Hv).
    rewrite Hi, Hn, Hc, Ht, Hv, Hr. cbn [recorded iter n_iter cls tol verbose List.length].
    repeat split; lia.
Qed.

(** A mute monitor completes every run. *)
Lemma report_all_quiet (vs : list float) :
  forall s, verbose (mon s) = false ->
    exists s', report_all vs s = (Return tt, s').
Proof.
  induction vs as [|v vs IH]; intros s Hv.
  - exists s. reflexivity.
  - cbn [report_all]. unfold bind at 1.
    rewrite (report_quiet v s Hv).
    apply IH. exact Hv.
Qed.

(** The window never holds more than [maxlen] values, whatever calls
    were made and whether or not they raised. *)
Lemma reachable_history_bounded (s : state) :
  reachable s -> (List.length (history (mon s)) <= Deque.maxlen)%nat.
Proof.
  induction 1 as [c t n vb self err Hinit | v s Hs IH | s Hs IH].
  - injection Hinit as <-. cbn. unfold Deque.maxlen. lia.
  - destruct (report_mon_cases v s) as [-> | ->].
    + exact IH.
    + cbn [recorded history]. apply append_length_le. exact IH.
  - cbn. unfold Deque.maxlen. lia.
Qed.

Lemma states_after_reachable (vs : list float) :
  forall s, reachable s -> Forall reachable (states_after vs s).
Proof.
  induction vs as [|v vs IH]; intros s Hs; cbn [states_after].
  - constructor.
  - constructor.
    + apply reach_report. exact Hs.
    + apply IH. apply reach_report. exact Hs.
Qed.

(** [_reset] always returns, empties the window, zeroes the counter and
    leaves everything else alone. *)
Lemma reset_spec (s : state) :
  _reset s =
    (Return tt,
     {| mon := {| cls := cls (mon s); tol := tol (mon s);
                  n_iter := n_iter (mon s); verbose := verbose (mon s);
                  history := []; iter := 0 |};
        stderr := stderr s |}).
Proof. reflexivity. Qed.

End RunFacts.

(** C7: for every sequence of [report] calls made on a newly built
    monitor, the history holds at most 2 values after every call
    (including calls that raise); a returning call on a full window
    [a; b] leaves [b; v], the oldest value being dropped; and [_reset]
    always returns, leaving the history empty and [iter] at 0 while
    [tol], [n_iter], [verbose] and the class are unchanged. *)
Theorem history_window_bounded_and_reset
    (c : monitor_class) (t : float) (n : Z) (vb : bool)
    (self : Monitor) (err : list progress) (vs : list float) :
  __init__ c t n vb = Return self ->
  Forall (fun s => (List.length (history (mon s)) <= 2)%nat)
         (states_after vs (started self err)) /\
  (forall s v a b s',
      history (mon s) = [a; b] -> report v s = (Return tt, s') ->
      history (mon s') = [b; v]) /\
  (forall s,
      fst (_reset s) = Return tt /\
      history (mon (snd (_reset s))) = [] /\
      iter (mon (snd (_reset s))) = 0 /\
      tol (mon (snd (_reset s))) = tol (mon s) /\
      n_iter (mon (snd (_reset s))) = n_iter (mon s) /\
      verbose (mon (snd (_reset s))) = verbose (mon s) /\
      cls (mon (snd (_reset s))) = cls (mon s)).
Proof.
  intros Hinit. split; [|split].
  - assert (Hr : reachable (started self err))
      by (eapply reach_init; exact Hinit).
    apply states_after_reachable with (vs := vs) in Hr.
    rewrite Forall_forall in *. intros s Hs.
    apply reachable_history_bounded. apply Hr. exact Hs.
  - intros s v a b s' Hh Hr.
    apply report_returns_recorded in Hr. rewrite Hr.
    cbn [recorded history]. rewrite Hh. apply append_full.
  - intros s. rewrite reset_spec. cbn. repeat split.
Qed.

Lemma history_window_bounded_and_reset_witness :
  Forall (fun s => (List.length (history (mon s)) <= 2)%nat)
         (states_after [1; 2; 3; 4]%float (started quiet_monitor [])) /\
  history (mon (snd (report 3%float
                       (started (recorded 2%float (recorded 1%float quiet_monitor)) []))))
    = [2; 3]%float.
Proof.
  destruct (history_window_bounded_and_reset
              ConvergenceMonitor 0.5%float 10 false quiet_monitor []
              [1; 2; 3; 4]%float eq_refl) as (Hb & He & _).
  split.
  - exact Hb.
  - apply (He (started (recorded 2%float (recorded 1%float quiet_monitor)) [])
               3%float 1%float 2%float); reflexivity.
Defined.

(** C1: [report] is meant to append the value to the history and to
    advance [iter] whatever [verbose] is.  Evaluated on
    [ConvergenceMonitor(0.5, 10, True)]: the first call [report(1.0)]
    returns and records; the second call [report(2.0)] raises
    AttributeError (the lookup of [histor]) and leaves the history at
    [1.0] and [iter] at 1, where the same call on the mute monitor
    returns with history [1.0; 2.0] and [iter] 2. *)
Theorem report_verbose_second_call_raises :
  __init__ ConvergenceMonitor 0.5%float 10 true = Return verbose_monitor /\
  report 1%float (started verbose_monitor []) = (Return tt, verbose_run_1) /\
  history (mon verbose_run_1) = [1%float] /\
  iter (mon verbose_run_1) = 1 /\
  report 2%float verbose_run_1 = (Raise AttributeError, verbose_run_1) /\
  mon (snd (report 2%float verbose_run_1)) <> recorded 2%float (mon verbose_run_1) /\
  fst (report 2%float quiet_run_1) = Return tt /\
  history (mon (snd (report 2%float quiet_run_1))) = [1; 2]%float /\
  iter (mon (snd (report 2%float quiet_run_1))) = 2.
Proof.
  do 5 (split; [reflexivity|]).
  split; [|repeat split; reflexivity].
  rewrite report_verbose_later; [| reflexivity | discriminate].
  intros H. apply (f_equal iter) in H. discriminate H.
Qed.

(** C8: [iter] is meant to equal the number of [report] calls made.
    Evaluated on [ConvergenceMonitor(0.5, 10, True)] with the values
    1.0, 2.0 (and 3.0): the run stops with AttributeError at the second
    call and [iter] is 1 after two calls; for a caller that carries on
    after the exception, [iter] is still 1 after the third call. *)
Theorem iter_stuck_on_verbose_monitor :
  fst (report_all [1; 2]%float (started verbose_monitor [])) =
    Raise AttributeError /\
  iter (mon (snd (report_all [1; 2]%float (started verbose_monitor [])))) = 1 /\
  List.map (fun s => iter (mon s))
           (states_after [1; 2; 3]%float (started verbose_monitor []))
    = [1; 1; 1].
Proof. repeat split; reflexivity. Qed.

(** What [__init__] stores. *)
Lemma init_fields (c : monitor_class) (t : float) (n : Z) (vb : bool)
    (self : Monitor) :
  __init__ c t n vb = Return self ->
  cls self = c /\ tol self = t /\ n_iter self = n /\ verbose self = vb /\
  history self = [] /\ iter self = 0.
Proof. intros [= <-]. repeat split. Qed.

(** On mute monitors the counter does follow the calls: after [n]
    calls on a new monitor, [iter] is [n]. *)
Lemma iter_counts_reports_quiet (c : monitor_class) (t : float) (n : Z)
    (self : Monitor) (err : list progress) (vs : list float) :
  __init__ c t n false = Return self ->
  exists s, report_all vs (started self err) = (Return tt, s) /\
            iter (mon s) = Z.of_nat (List.length vs).
Proof.
  intros Hinit. apply init_fields in Hinit.
  destruct Hinit as (_ & _ & _ & Hv & _ & Hi0).
  destruct (report_all_quiet vs (started self err) Hv) as [s Hs].
  exists s. split; [exact Hs|].
  apply report_all_returns in Hs. destruct Hs as [Hi _].
  rewrite Hi. cbn [started mon]. lia.
Qed.

(** ** [converged] *)

Section ConvergedFacts.

Variable self : Monitor.

(** At the iteration limit the policy is not consulted. *)
Lemma converged_at_limit :
  iter self = n_iter self -> converged self = Return (VBool true).
Proof.
  intros H. unfold converged, py_or. cbn.
  rewrite H, Z.eqb_refl. reflexivity.
Qed.

(** Anywhere else the answer is the policy's, exception included. *)
Lemma converged_off_limit :
  iter self <> n_iter self -> converged self = _check_convergence self.
Proof.
  intros H. apply Z.eqb_neq in H. unfold converged, py_or. cbn.
  rewrite H. reflexivity.
Qed.

End ConvergedFacts.

(** The iteration limit on runs that complete.  For every policy class,
    tolerance, verbosity and values [v1 v2 v3], on a monitor built with
    [n_iter = 3]: every run of three [report] calls that returns leaves
    [iter] at 3 and [converged] returning [True]; a mute monitor always
    completes such a run; and in any state with [iter = n_iter],
    [converged] returns [True] without consulting the policy, so it
    cannot raise there. *)
Theorem converged_after_three_reports
    (c : monitor_class) (t : float) (vb : bool) (self : Monitor)
    (err : list progress) (v1 v2 v3 : float) :
  __init__ c t 3 vb = Return self ->
  (vb = false ->
     exists s, report_all [v1; v2; v3] (started self err) = (Return tt, s)) /\
  (forall s, report_all [v1; v2; v3] (started self err) = (Return tt, s) ->
     iter (mon s) = 3 /\ converged (mon s) = Return (VBool true)) /\
  (forall m, iter m = n_iter m -> converged m = Return (VBool true)).
Proof.
  intros [= <-]. split; [|split].
  - intros ->. apply report_all_quiet. reflexivity.
  - intros s Hs. apply report_all_returns in Hs.
    destruct Hs as (Hi & Hn & _). cbn in Hi, Hn.
    split; [exact Hi|].
    apply converged_at_limit. rewrite Hi, Hn. reflexivity.
  - intros m. apply converged_at_limit.
Qed.

Lemma converged_after_three_reports_witness :
  history (mon relative_run) = [0; 1]%float /\
  _check_convergence (mon relative_run) = Raise ZeroDivisionError /\
  converged (mon relative_run) = Return (VBool true).
Proof.
  split; [reflexivity|]. split; [reflexivity|].
  destruct (converged_after_three_reports
              RelativeMonitor 0.1%float false relative_monitor_3 []
              5%float 0%float 1%float eq_refl) as (_ & H & _).
  apply H. reflexivity.
Defined.

(** C4: a monitor built with [n_iter = 3] is meant to have
    [converged = True] after exactly three [report] calls.  Evaluated on
    [ConvergenceMonitor(100.0, 3, True)] with the values 1.0, 2.0, 3.0:
    the first call returns, the second and the third raise
    AttributeError (the lookup of [histor]), so the run stops with that
    exception; for a caller that carries on, [iter] is 1 after each of
    the three calls and [converged] then returns [False].  The same
    three calls on the monitor built with [verbose=False] leave [iter]
    at 3 and [converged] returning [True]. *)
Theorem verbose_monitor_misses_iteration_limit :
  __init__ ConvergenceMonitor 100%float 3 true = Return verbose_monitor_3 /\
  fst (report_all [1; 2; 3]%float (started verbose_monitor_3 []))
    = Raise AttributeError /\
  fst (report 1%float (started verbose_monitor_3 [])) = Return tt /\
  fst (report 2%float (perform_all [CallReport 1%float]
                                   (started verbose_monitor_3 [])))
    = Raise AttributeError /\
  fst (report 3%float (perform_all [CallReport 1%float; CallReport 2%float]
                                   (started verbose_monitor_3 [])))
    = Raise AttributeError /\
  List.map (fun s => iter (mon s))
           (states_after [1; 2; 3]%float (started verbose_monitor_3 []))
    = [1; 1; 1] /\
  converged (mon (perform_all
                    [CallReport 1%float; CallReport 2%float; CallReport 3%float]
                    (started verbose_monitor_3 [])))
    = Return (VBool false) /\
  iter (mon (perform_all
               [CallReport 1%float; CallReport 2%float; CallReport 3%float]
               (started mute_monitor_3 []))) = 3 /\
  converged (mon (perform_all
                    [CallReport 1%float; CallReport 2%float; CallReport 3%float]
                    (started mute_monitor_3 [])))
    = Return (VBool true).
Proof. repeat split; reflexivity. Qed.

(** The iteration limit is tested with equality, on runs that
    complete.  On a monitor built with [n_iter = n], a returning run of
    exactly [n] [report] calls leaves [converged] returning [True]; one
    more returning call
    brings [iter] to [n_iter + 1], the limit test is false again and
    [converged] is just the policy's answer, so it is false whenever
    the policy's condition is false.  A mute monitor always completes
    these [n + 1] calls. *)
Theorem max_iter_test_is_exact
    (c : monitor_class) (t : float) (n : Z) (vb : bool) (self : Monitor)
    (err : list progress) (vs : list float) (v : float) :
  __init__ c t n vb = Return self ->
  Z.of_nat (List.length vs) = n ->
  (vb = false ->
     exists s s', report_all vs (started self err) = (Return tt, s) /\
                  report v s = (Return tt, s')) /\
  (forall s s',
     report_all vs (started self err) = (Return tt, s) ->
     report v s = (Return tt, s') ->
     converged (mon s) = Return (VBool true) /\
     iter (mon s') = n_iter (mon s') + 1 /\
     converged (mon s') = _check_convergence (mon s') /\
     (forall p, _check_convergence (mon s') = Return p -> truthy p = false ->
        exists q, converged (mon s') = Return q /\ truthy q = false)).
Proof.
  intros Hinit Hlen. apply init_fields in Hinit.
  destruct Hinit as (_ & _ & Hn0 & Hv0 & _ & Hi0). split.
  - intros ->.
    destruct (report_all_quiet vs (started self err) Hv0) as [s Hs].
    exists s. rewrite Hs.
    assert (Hv : verbose (mon s) = false).
    { apply report_all_returns in Hs. destruct Hs as (_ & _ & _ & _ & Hv).
      rewrite Hv. exact Hv0. }
    rewrite (report_quiet v s Hv). eauto.
  - intros s s' Hrun Hrep.
    apply report_all_returns in Hrun. destruct Hrun as (Hi & Hn & _).
    cbn [started mon] in Hi, Hn.
    apply report_returns_recorded in Hrep.
    assert (Hi' : iter (mon s') = n_iter (mon s') + 1).
    { rewrite Hrep. cbn [recorded iter n_iter]. lia. }
    assert (Hc : converged (mon s') = _check_convergence (mon s')).
    { apply converged_off_limit. lia. }
    split; [|split; [|split]].
    + apply converged_at_limit. lia.
    + exact Hi'.
    + exact Hc.
    + intros p Hp Hf. exists p. rewrite Hc. split; assumption.
Qed.

Lemma max_iter_test_is_exact_witness :
  converged (mon quiet_run_2) = Return (VBool true) /\
  _check_convergence (mon quiet_run_2) = Return (VBool false) /\
  converged (mon quiet_run_3) = Return (VBool false).
Proof.
  destruct (max_iter_test_is_exact
              ConvergenceMonitor 0.5%float 2 false quiet_monitor_2 []
              [1; 2]%float 3%float eq_refl eq_refl) as (_ & H).
  destruct (H quiet_run_2 quiet_run_3 eq_refl eq_refl) as (H1 & _ & H3 & _).
  split; [exact H1|]. split; [reflexivity|].
  rewrite H3. reflexivity.
Defined.

(** C10: after [n_iter] [report] calls [converged] is meant to be
    [True], and after one more call to be false again when the policy's
    condition is false.  Evaluated on [ConvergenceMonitor(0.5, 1, True)]
    with the values 1.0 then 2.0: after the first call [iter] is 1 and
    [converged] returns [True] while the policy answers [False]; the
    second call raises AttributeError (the lookup of [histor]) and
    leaves [iter] at 1, so the policy still answers [False] and
    [converged] still returns [True].  On the monitor built with
    [verbose=False] the second call brings [iter] to 2 and [converged]
    returns [False]. *)
Theorem verbose_monitor_stays_at_iteration_limit :
  __init__ ConvergenceMonitor 0.5%float 1 true = Return verbose_monitor_1 /\
  converged (mon (perform_all [CallReport 1%float]
                              (started verbose_monitor_1 [])))
    = Return (VBool true) /\
  fst (report 2%float (perform_all [CallReport 1%float]
                                   (started verbose_monitor_1 [])))
    = Raise AttributeError /\
  iter (mon (perform_all [CallReport 1%float; CallReport 2%float]
                         (started verbose_monitor_1 []))) = 1 /\
  _check_convergence
    (mon (perform_all [CallReport 1%float; CallReport 2%float]
                      (started verbose_monitor_1 [])))
    = Return (VBool false) /\
  converged (mon (perform_all [CallReport 1%float; CallReport 2%float]
                              (started verbose_monitor_1 [])))
    = Return (VBool true) /\
  iter (mon (perform_all [CallReport 1%float; CallReport 2%float]
                         (started mute_monitor_1 []))) = 2 /\
  converged (mon (perform_all [CallReport 1%float; CallReport 2%float]
                              (started mute_monitor_1 [])))
    = Return (VBool false).
Proof. repeat split; reflexivity. Qed.

(** ** Indexing the window *)

Section IndexFacts.

Lemma len_app_one (d : Deque.t) (x : float) :
  Deque.len (d ++ [x]) = Deque.len d + 1.
Proof. unfold Deque.len. rewrite length_app. cbn. lia. Qed.

(** [d[-1]] is the value appended last. *)
Lemma getitem_last_app (d : Deque.t) (x : float) :
  Deque.getitem (d ++ [x]) (-1) = Return x.
Proof.
  unfold Deque.getitem. cbn [Z.ltb Z.compare].
  rewrite len_app_one.
  assert (H0 : 0 <= Deque.len d) by (unfold Deque.len; lia).
  replace (-1 + (Deque.len d + 1)) with (Deque.len d) by lia.
  destruct (Deque.len d <? 0) eqn:E1; [apply Z.ltb_lt in E1; lia|].
  destruct (Deque.len d + 1 <=? Deque.len d) eqn:E2; [apply Z.leb_le in E2; lia|].
  cbn [orb]. unfold Deque.len. rewrite Nat2Z.id.
  rewrite nth_error_app2 by lia. rewrite Nat.sub_diag. reflexivity.
Qed.

(** A window that holds something ends with some value. *)
Lemma nonempty_snoc (d : Deque.t) :
  d <> [] -> exists older x, d = (older ++ [x])%list.
Proof.
  intros H. destruct (exists_last H) as (older & x & ->). eauto.
Qed.

End IndexFacts.

(** ** The three policies *)

(** C5: for the absolute-gain policy, the policy always returns a
    boolean, and it is [True] exactly when the history holds two values
    and [history[1] - history[0] < tol] (strictly); away from the
    iteration limit this boolean is the value of [converged].  With
    history [5.0; 5.0009] and tolerance 0.001 [converged] is [True];
    with history [5.0; 6.0] and tolerance 0.5 it is [False]. *)
Theorem absolute_gain_policy :
  (forall self, cls self = ConvergenceMonitor ->
     exists b, _check_convergence self = Return (VBool b) /\
       (b = true <->
          Deque.len (history self) = 2 /\
          exists h0 h1,
            Deque.getitem (history self) 0 = Return h0 /\
            Deque.getitem (history self) 1 = Return h1 /\
            PrimFloat.ltb (PrimFloat.sub h1 h0) (tol self) = true) /\
       (iter self <> n_iter self -> converged self = Return (VBool b))) /\
  (forall n i vb, i <> n ->
     converged {| cls := ConvergenceMonitor; tol := 0.001%float; n_iter := n;
                  verbose := vb; history := [5.0; 5.0009]%float; iter := i |}
       = Return (VBool true)) /\
  (forall n i vb, i <> n ->
     converged {| cls := ConvergenceMonitor; tol := 0.5%float; n_iter := n;
                  verbose := vb; history := [5.0; 6.0]%float; iter := i |}
       = Return (VBool false)).
Proof.
  split; [|split].
  - intros self Hc.
    assert (Hoff : forall b, _check_convergence self = Return (VBool b) ->
              iter self <> n_iter self -> converged self = Return (VBool b)).
    { intros b Hb Hi. rewrite converged_off_limit by exact Hi. exact Hb. }
    revert Hoff. unfold _check_convergence. rewrite Hc.
    destruct (history self) as [|a [|b [|x l]]]; intros Hoff.
    + exists false. split; [reflexivity|]. split; [|apply Hoff; reflexivity].
      split; [discriminate|]. intros [H _]. discriminate H.
    + exists false. split; [reflexivity|]. split; [|apply Hoff; reflexivity].
      split; [discriminate|]. intros [H _]. discriminate H.
    + exists (PrimFloat.ltb (PrimFloat.sub b a) (tol self)).
      split; [reflexivity|]. split; [|apply Hoff; reflexivity]. split.
      * intros H. split; [reflexivity|]. exists a, b. repeat split. exact H.
      * intros (_ & h0 & h1 & H0 & H1 & H).
        cbn in H0, H1. injection H0 as <-. injection H1 as <-. exact H.
    + assert (E : (Deque.len (a :: b :: x :: l) =? 2) = false).
      { apply Z.eqb_neq. unfold Deque.len. cbn [List.length]. lia. }
      revert Hoff. unfold py_and. cbn [obind truthy]. rewrite E. intros Hoff.
      exists false. split; [reflexivity|]. split; [|apply Hoff; reflexivity].
      split; [discriminate|]. intros [H _].
      apply Z.eqb_eq in H. congruence.
  - intros n i vb Hi. rewrite converged_off_limit by exact Hi. reflexivity.
  - intros n i vb Hi. rewrite converged_off_limit by exact Hi. reflexivity.
Qed.

Lemma absolute_gain_policy_witness :
  converged {| cls := ConvergenceMonitor; tol := 0.001%float; n_iter := 100;
               verbose := false; history := [5.0; 5.0009]%float; iter := 2 |}
    = Return (VBool true) /\
  converged {| cls := ConvergenceMonitor; tol := 0.5%float; n_iter := 100;
               verbose := false; history := [5.0; 6.0]%float; iter := 2 |}
    = Return (VBool false).
Proof.
  destruct absolute_gain_policy as (_ & H1 & H2).
  split; [apply H1 | apply H2]; discriminate.
Defined.

(** C2: for the relative-gain policy: with history
    [previous; current] and [previous] not equal to zero, the policy
    returns the boolean [(current - previous) / previous < tol]; with
    fewer than two values it returns [False]; with [previous] equal to
    zero it raises ZeroDivisionError instead of returning; and away from
    the iteration limit [converged] is exactly the policy's outcome.
    With history [10.0; 10.5] and tolerance 0.1 [converged] is [True];
    with history [0.0; 1.0] it raises ZeroDivisionError. *)
Theorem relative_gain_policy :
  (forall self, cls self = RelativeMonitor ->
     (forall previous current,
        history self = [previous; current] ->
        PrimFloat.eqb previous 0%float = false ->
        _check_convergence self =
          Return (VBool (PrimFloat.ltb
                           (PrimFloat.div (PrimFloat.sub current previous) previous)
                           (tol self)))) /\
     ((List.length (history self) < 2)%nat ->
        _check_convergence self = Return (VBool false)) /\
     (forall previous current,
        history self = [previous; current] ->
        PrimFloat.eqb previous 0%float = true ->
        _check_convergence self = Raise ZeroDivisionError) /\
     (iter self <> n_iter self -> converged self = _check_convergence self)) /\
  (forall n i vb, i <> n ->
     converged {| cls := RelativeMonitor; tol := 0.1%float; n_iter := n;
                  verbose := vb; history := [10.0; 10.5]%float; iter := i |}
       = Return (VBool true)) /\
  (forall t n i vb, i <> n ->
     converged {| cls := RelativeMonitor; tol := t; n_iter := n;
                  verbose := vb; history := [0.0; 1.0]%float; iter := i |}
       = Raise ZeroDivisionError).
Proof.
  split; [|split].
  - intros self Hc. repeat split.
    + intros previous current Hh Hz.
      unfold _check_convergence. rewrite Hc, Hh. cbn.
      unfold float_div. rewrite Hz. reflexivity.
    + intros Hlen. unfold _check_convergence. rewrite Hc.
      destruct (history self) as [|a [|b l]]; cbn in Hlen |- *;
        try reflexivity; lia.
    + intros previous current Hh Hz.
      unfold _check_convergence. rewrite Hc, Hh. cbn.
      unfold float_div. rewrite Hz. reflexivity.
    + apply converged_off_limit.
  - intros n i vb Hi. rewrite converged_off_limit by exact Hi. reflexivity.
  - intros t n i vb Hi. rewrite converged_off_limit by exact Hi. reflexivity.
Qed.

Lemma relative_gain_policy_witness :
  converged {| cls := RelativeMonitor; tol := 0.1%float; n_iter := 100;
               verbose := false; history := [10.0; 10.5]%float; iter := 2 |}
    = Return (VBool true) /\
  converged {| cls := RelativeMonitor; tol := 0.1%float; n_iter := 100;
               verbose := false; history := [0.0; 1.0]%float; iter := 2 |}
    = Raise ZeroDivisionError /\
  _check_convergence
    {| cls := RelativeMonitor; tol := 0.1%float; n_iter := 100;
       verbose := false; history := [4.0]%float; iter := 1 |}
    = Return (VBool false).
Proof.
  destruct relative_gain_policy as (Hg & H1 & H2).
  split; [apply H1; discriminate|].
  split; [apply H2; discriminate|].
  destruct (Hg {| cls := RelativeMonitor; tol := 0.1%float; n_iter := 100;
                  verbose := false; history := [4.0]%float; iter := 1 |}
               eq_refl) as (_ & Hshort & _).
  apply Hshort. cbn. lia.
Defined.

(** C6: for the absolute-threshold policy, the policy always returns,
    and its answer is true exactly when the history holds at least one
    value and the most recent one, [history[-1]], is greater than or
    equal to [tol]; away from the iteration limit this is the value of
    [converged].  A history ending in 3.0 with tolerance 2.5, of any
    length and in particular with that single value, gives
    [converged = True]. *)
Theorem threshold_policy :
  (forall self, cls self = ThresholdMonitor ->
     exists p, _check_convergence self = Return p /\
       (truthy p = true <->
          1 <= Deque.len (history self) /\
          exists last,
            Deque.getitem (history self) (-1) = Return last /\
            float_ge last (tol self) = true) /\
       (iter self <> n_iter self -> converged self = Return p)) /\
  (forall older n i vb,
     converged {| cls := ThresholdMonitor; tol := 2.5%float; n_iter := n;
                  verbose := vb; history := (older ++ [3.0%float])%list;
                  iter := i |}
       = Return (VBool true)) /\
  (forall n i vb,
     converged {| cls := ThresholdMonitor; tol := 2.5%float; n_iter := n;
                  verbose := vb; history := [3.0%float]; iter := i |}
       = Return (VBool true)).
Proof.
  assert (Hex : forall older n i vb,
     converged {| cls := ThresholdMonitor; tol := 2.5%float; n_iter := n;
                  verbose := vb; history := (older ++ [3.0%float])%list;
                  iter := i |}
       = Return (VBool true)).
  { intros older n i vb. destruct (Z.eq_dec i n) as [E|E].
    - apply converged_at_limit. exact E.
    - rewrite converged_off_limit by exact E.
      unfold _check_convergence, py_and. cbn [cls history tol obind].
      replace (truthy (VDeque (older ++ [3.0%float]))) with true
        by (destruct older; reflexivity).
      rewrite getitem_last_app. reflexivity. }
  split; [|split].
  - intros self Hc.
    assert (Hoff : forall p, _check_convergence self = Return p ->
              iter self <> n_iter self -> converged self = Return p).
    { intros p Hp Hi. rewrite converged_off_limit by exact Hi. exact Hp. }
    revert Hoff. unfold _check_convergence, py_and. rewrite Hc.
    destruct (history self) as [|a l] eqn:Hh.
    + intros Hoff. exists (VDeque []). split; [reflexivity|]. split.
      * split; [discriminate|]. intros [H _]. unfold Deque.len in H. cbn in H. lia.
      * apply Hoff. reflexivity.
    + destruct (@nonempty_snoc (a :: l)) as (older & x & Hsnoc); [discriminate|].
      rewrite Hsnoc. cbn [obind].
      replace (truthy (VDeque (older ++ [x]))) with true
        by (destruct older; reflexivity).
      rewrite getitem_last_app. cbn [obind].
      intros Hoff. exists (VBool (float_ge x (tol self))).
      split; [reflexivity|]. split.
      * cbn [truthy]. split.
        -- intros H. split.
           ++ rewrite len_app_one. unfold Deque.len. lia.
           ++ exists x. split; [reflexivity | exact H].
        -- intros (_ & last & Hl & H). injection Hl as <-. exact H.
      * apply Hoff. reflexivity.
  - exact Hex.
  - intros n i vb. apply (Hex []).
Qed.

Lemma threshold_policy_witness :
  _check_convergence
    {| cls := ThresholdMonitor; tol := 2.5%float; n_iter := 100;
       verbose := false; history := [3.0%float]; iter := 1 |}
    = Return (VBool true) /\
  converged
    {| cls := ThresholdMonitor; tol := 2.5%float; n_iter := 100;
       verbose := false; history := [3.0%float]; iter := 1 |}
    = Return (VBool true) /\
  converged
    {| cls := ThresholdMonitor; tol := 2.5%float; n_iter := 100;
       verbose := false; history := [1.0; 2.0]%float; iter := 2 |}
    = Return (VBool false).
Proof.
  destruct threshold_policy as (Hg & _ & H1).
  split; [reflexivity|]. split; [apply H1|].
  destruct (Hg {| cls := ThresholdMonitor; tol := 2.5%float; n_iter := 100;
                  verbose := false; history := [1.0; 2.0]%float; iter := 2 |}
               eq_refl) as (p & Hp & _ & Hc).
  rewrite Hc by discriminate.
  rewrite <- Hp. reflexivity.
Defined.

(** C9: on a newly built monitor of any of the three classes, before
    any [report] call, [converged] returns without raising: [True] when
    [n_iter = 0], and otherwise a false value, namely [False] for the
    two gain policies and the (empty) history itself for the threshold
    policy. *)
Theorem converged_before_first_report
    (c : monitor_class) (t : float) (n : Z) (vb : bool) (self : Monitor) :
  __init__ c t n vb = Return self ->
  (n = 0 -> converged self = Return (VBool true)) /\
  (n <> 0 ->
     exists p, converged self = Return p /\ truthy p = false /\
       p = match c with
           | ThresholdMonitor => VDeque []
           | _ => VBool false
           end).
Proof.
  intros [= <-]. split.
  - intros ->. reflexivity.
  - intros Hn.
    rewrite converged_off_limit by (cbn; congruence).
    destruct c; eexists; repeat split.
Qed.

Lemma converged_before_first_report_witness :
  converged verbose_monitor = Return (VBool false) /\
  converged {| cls := ThresholdMonitor; tol := 2.5%float; n_iter := 0;
               verbose := false; history := Deque.new; iter := 0 |}
    = Return (VBool true).
Proof.
  split.
  - destruct (converged_before_first_report
                ConvergenceMonitor 0.5%float 10 true verbose_monitor eq_refl)
      as (_ & H).
    destruct (H ltac:(discriminate)) as (p & Hp & _ & ->). exact Hp.
  - apply (converged_before_first_report
             ThresholdMonitor 2.5%float 0 false _ eq_refl). reflexivity.
Defined.

(** ** Construction *)

(** C3, as the claim states it, fails: [ConvergenceMonitor(0.5, -1,
    False)] is built without any error. *)
Lemma init_accepts_negative_n_iter :
  __init__ ConvergenceMonitor 0.5%float (-1) false =
    Return {| cls := ConvergenceMonitor; tol := 0.5%float; n_iter := -1;
              verbose := false; history := []; iter := 0 |} /\
  returns (__init__ ConvergenceMonitor 0.5%float (-1) false) = true.
Proof. split; reflexivity. Qed.

(** C3 (amended): construction validates nothing.  For every
    non-positive [n_iter] the constructor returns a monitor that stores
    the value as given, with empty history and [iter = 0], and the first
    query of [converged] on it returns as well. *)
Theorem init_validates_nothing
    (c : monitor_class) (t : float) (n : Z) (vb : bool) :
  n <= 0 ->
  exists self,
    __init__ c t n vb = Return self /\
    cls self = c /\ tol self = t /\ n_iter self = n /\ verbose self = vb /\
    history self = [] /\ iter self = 0 /\
    returns (converged self) = true.
Proof.
  intros _.
  exists {| cls := c; tol := t; n_iter := n; verbose := vb;
            history := Deque.new; iter := 0 |}.
  do 7 (split; [reflexivity|]).
  destruct (Z.eq_dec 0 n) as [<- | Hn].
  - reflexivity.
  - rewrite converged_off_limit by exact Hn. destruct c; reflexivity.
Qed.

Lemma init_validates_nothing_witness :
  exists self,
    __init__ RelativeMonitor 0.1%float 0 true = Return self /\
    n_iter self = 0 /\ returns (converged self) = true.
Proof.
  destruct (init_validates_nothing RelativeMonitor 0.1%float 0 true
              ltac:(lia)) as (self & H & _ & _ & Hn & _ & _ & _ & Hr).
  exists self. repeat split; assumption.
Defined.

(** * Further properties of the monitors *)

(** ** Floating-point facts *)

Section FloatFacts.

Lemma is_nan_spec (x : float) :
  PrimFloat.is_nan x = true -> Prim2SF x = S754_nan.
Proof.
  unfold PrimFloat.is_nan. rewrite eqb_spec.
  destruct (Prim2SF x) as [s | s | | s m e]; try reflexivity.
  - destruct s; discriminate.
  - destruct s; discriminate.
  - unfold SFeqb, SFcompare.
    rewrite Z.compare_refl, Pos.compare_cont_refl.
    destruct s; discriminate.
Qed.

Lemma sub_nan_r (x y : float) :
  PrimFloat.is_nan y = true -> PrimFloat.is_nan (PrimFloat.sub x y) = true.
Proof.
  intros H. apply is_nan_spec in H.
  unfold PrimFloat.is_nan. rewrite eqb_spec, sub_spec, H.
  unfold SF64sub, SFsub.
  destruct (Prim2SF x); reflexivity.
Qed.

Lemma sub_nan_l (x y : float) :
  PrimFloat.is_nan x = true -> PrimFloat.is_nan (PrimFloat.sub x y) = true.
Proof.
  intros H. apply is_nan_spec in H.
  unfold PrimFloat.is_nan. rewrite eqb_spec, sub_spec, H. reflexivity.
Qed.

Lemma div_nan_l (x y : float) :
  PrimFloat.is_nan x = true -> PrimFloat.is_nan (PrimFloat.div x y) = true.
Proof.
  intros H. apply is_nan_spec in H.
  unfold PrimFloat.is_nan. rewrite eqb_spec, div_spec, H. reflexivity.
Qed.

Lemma ltb_nan_l (x y : float) :
  PrimFloat.is_nan x = true -> PrimFloat.ltb x y = false.
Proof.
  intros H. apply is_nan_spec in H. rewrite ltb_spec, H. reflexivity.
Qed.

Lemma leb_nan_r (x y : float) :
  PrimFloat.is_nan y = true -> PrimFloat.leb x y = false.
Proof.
  intros H. apply is_nan_spec in H. rewrite leb_spec, H.
  unfold SFleb, SFcompare. destruct (Prim2SF x); reflexivity.
Qed.

Lemma ltb_nan_r (x y : float) :
  PrimFloat.is_nan y = true -> PrimFloat.ltb x y = false.
Proof.
  intros H. apply is_nan_spec in H. rewrite ltb_spec, H.
  unfold SFltb, SFcompare. destruct (Prim2SF x); reflexivity.
Qed.

Lemma leb_nan_l (x y : float) :
  PrimFloat.is_nan x = true -> PrimFloat.leb x y = false.
Proof.
  intros H. apply is_nan_spec in H. rewrite leb_spec, H. reflexivity.
Qed.

(** A finite float is a zero or a finite nonzero number. *)
Lemma finite_cases (b : float) :
  PrimFloat.is_finite b = true ->
  (exists s, Prim2SF b = S754_zero s) \/
  (exists s m e, Prim2SF b = S754_finite s m e).
Proof.
  unfold PrimFloat.is_finite, PrimFloat.is_nan, PrimFloat.is_infinity.
  rewrite !eqb_spec, abs_spec.
  destruct (Prim2SF b) as [s | s | | s m e]; eauto.
  - cbn. rewrite orb_true_r. discriminate.
  - cbn. discriminate.
Qed.

(** [b - b] is [+0] for every finite [b]. *)
Lemma sub_self (b : float) :
  PrimFloat.is_finite b = true ->
  Prim2SF (PrimFloat.sub b b) = S754_zero false.
Proof.
  intros H. rewrite sub_spec.
  destruct (finite_cases b H) as [[s ->] | (s & m & e & ->)].
  - destruct s; reflexivity.
  - unfold SF64sub, SFsub. rewrite Z.min_id.
    unfold shl_align. rewrite Z.sub_diag. reflexivity.
Qed.

(** Comparisons do not see the sign of a zero. *)
Lemma ltb_of_zero (x t : float) (s : bool) :
  Prim2SF x = S754_zero s -> PrimFloat.ltb x t = PrimFloat.ltb 0%float t.
Proof.
  intros H. rewrite !ltb_spec, H.
  replace (Prim2SF 0%float) with (S754_zero false) by reflexivity.
  unfold SFltb, SFcompare. destruct (Prim2SF t); reflexivity.
Qed.

Lemma zero_div_finite (x b : float) (s : bool) :
  Prim2SF x = S754_zero s -> PrimFloat.is_finite b = true ->
  PrimFloat.eqb b 0%float = false ->
  exists s', Prim2SF (PrimFloat.div x b) = S754_zero s'.
Proof.
  intros Hx Hb Hz. rewrite div_spec, Hx.
  destruct (finite_cases b Hb) as [[sb E] | (sb & m & e & E)].
  - rewrite eqb_spec, E in Hz. discriminate Hz.
  - rewrite E. eexists. reflexivity.
Qed.

End FloatFacts.

(** ** Arbitrary sequences of [report] and [_reset] calls *)

Section CallSequences.

(** A property kept by every call holds after any sequence of calls. *)
Lemma perform_all_invariant (P : state -> Prop) :
  (forall c s, P s -> P (perform c s)) ->
  forall cs s, P s -> P (perform_all cs s).
Proof.
  intros Hstep cs. induction cs as [|c cs IH]; intros s Hs.
  - exact Hs.
  - cbn. apply IH. apply Hstep. exact Hs.
Qed.

Lemma perform_same_config (c : call) (s : state) :
  same_config (mon (perform c s)) (mon s).
Proof.
  destruct c as [v|]; cbn [perform].
  - destruct (report_mon_cases v s) as [-> | ->]; repeat split.
  - rewrite reset_spec. repeat split.
Qed.

Lemma perform_all_same_config (cs : list call) (s : state) :
  same_config (mon (perform_all cs s)) (mon s).
Proof.
  apply (perform_all_invariant (fun s' => same_config (mon s') (mon s))).
  - intros c s' (H1 & H2 & H3 & H4).
    destruct (perform_same_config c s') as (G1 & G2 & G3 & G4).
    repeat split; congruence.
  - repeat split.
Qed.

(** What [report] does to the monitor, and whether it raises, depends on
    the monitor only, not on what has been printed before. *)
Lemma report_mon_only (v : float) (s1 s2 : state) :
  mon s1 = mon s2 ->
  fst (report v s1) = fst (report v s2) /\
  mon (snd (report v s1)) = mon (snd (report v s2)).
Proof.
  destruct s1 as [[c t n vb h i] e1], s2 as [m2 e2]. cbn. intros <-.
  destruct vb; [destruct h|]; split; reflexivity.
Qed.

Lemma states_after_mon_only (vs : list float) :
  forall s1 s2, mon s1 = mon s2 ->
    List.map mon (states_after vs s1) = List.map mon (states_after vs s2).
Proof.
  induction vs as [|v vs IH]; intros s1 s2 H; cbn [states_after List.map].
  - reflexivity.
  - destruct (report_mon_only v s1 s2 H) as [_ Hm].
    f_equal; [exact Hm | apply IH; exact Hm].
Qed.

End CallSequences.

(** X1: whatever calls were made on a monitor since it was built,
    [_reset] brings the monitor object back to exactly what [__init__]
    built; replaying any values after the reset then goes through the
    same monitor states, and gives the same [converged] answers after
    each call, as running them on the new monitor. *)
Theorem reset_then_replay
    (c : monitor_class) (t : float) (n : Z) (vb : bool) (self : Monitor)
    (err : list progress) (cs : list call) (vs : list float) :
  __init__ c t n vb = Return self ->
  mon (snd (_reset (perform_all cs (started self err)))) = self /\
  List.map mon (states_after vs (snd (_reset (perform_all cs (started self err)))))
    = List.map mon (states_after vs (started self err)) /\
  List.map (fun x => converged (mon x))
           (states_after vs (snd (_reset (perform_all cs (started self err)))))
    = List.map (fun x => converged (mon x)) (states_after vs (started self err)).
Proof.
  intros Hinit. apply init_fields in Hinit.
  destruct Hinit as (Hc & Ht & Hn & Hv & Hh & Hi).
  assert (Hm : mon (snd (_reset (perform_all cs (started self err)))) = self).
  { rewrite reset_spec. cbn [snd mon].
    destruct (perform_all_same_config cs (started self err))
      as (G1 & G2 & G3 & G4).
    cbn [started mon] in G1, G2, G3, G4. rewrite G1, G2, G3, G4.
    destruct self as [c0 t0 n0 vb0 h0 i0]. cbn in Hh, Hi. subst h0 i0.
    reflexivity. }
  assert (Hs : List.map mon
                 (states_after vs (snd (_reset (perform_all cs (started self err)))))
               = List.map mon (states_after vs (started self err))).
  { apply states_after_mon_only. rewrite Hm. reflexivity. }
  split; [exact Hm|]. split; [exact Hs|].
  rewrite <- (List.map_map mon converged), Hs, List.map_map. reflexivity.
Qed.

Lemma reset_then_replay_witness :
  mon (snd (_reset (perform_all [CallReport 1%float; CallReset; CallReport 7%float]
                                (started quiet_monitor_2 []))))
    = quiet_monitor_2 /\
  List.map (fun x => converged (mon x))
           (states_after [1; 2; 3]%float
              (snd (_reset (perform_all
                              [CallReport 1%float; CallReset; CallReport 7%float]
                              (started quiet_monitor_2 [])))))
    = [Return (VBool false); Return (VBool true); Return (VBool false)].
Proof.
  destruct (reset_then_replay
              ConvergenceMonitor 0.5%float 2 false quiet_monitor_2 []
              [CallReport 1%float; CallReset; CallReport 7%float]
              [1; 2; 3]%float eq_refl) as (H1 & _ & H3).
  split; [exact H1|]. rewrite H3. reflexivity.
Defined.

(** X2: the counter and the window move together.  After any sequence
    of [report] and [_reset] calls on a newly built monitor, raising
    calls included, [iter] is not negative and the history holds
    [min(iter, 2)] values. *)
Theorem history_length_follows_iter
    (c : monitor_class) (t : float) (n : Z) (vb : bool) (self : Monitor)
    (err : list progress) (cs : list call) :
  __init__ c t n vb = Return self ->
  0 <= iter (mon (perform_all cs (started self err))) /\
  Z.of_nat (List.length (history (mon (perform_all cs (started self err)))))
    = Z.min (iter (mon (perform_all cs (started self err)))) 2.
Proof.
  intros Hinit. apply init_fields in Hinit.
  destruct Hinit as (_ & _ & _ & _ & Hh & Hi).
  apply (perform_all_invariant
           (fun s => 0 <= iter (mon s) /\
                     Z.of_nat (List.length (history (mon s)))
                       = Z.min (iter (mon s)) 2)).
  - intros [v|] s [H0 Hl]; cbn [perform].
    + destruct (report_mon_cases v s) as [-> | ->]; [split; assumption|].
      cbn [recorded iter history]. split; [lia|].
      destruct (history (mon s)) as [|a [|b [|x l]]];
        cbn [List.length] in Hl; cbn; lia.
    + rewrite reset_spec. cbn. split; lia.
  - cbn [started mon]. rewrite Hh, Hi. cbn. split; lia.
Qed.

Lemma history_length_follows_iter_witness :
  iter (mon (perform_all
               [CallReport 1%float; CallReport 2%float; CallReport 3%float]
               (started quiet_monitor []))) = 3 /\
  List.length (history (mon (perform_all
               [CallReport 1%float; CallReport 2%float; CallReport 3%float]
               (started quiet_monitor [])))) = 2%nat.
Proof.
  destruct (history_length_follows_iter
              ConvergenceMonitor 0.5%float 10 false quiet_monitor []
              [CallReport 1%float; CallReport 2%float; CallReport 3%float]
              eq_refl) as (_ & H).
  split; [reflexivity|].
  apply Nat2Z.inj. rewrite H. reflexivity.
Defined.

(** X3: a monitor built with [verbose=True] never gets past its first
    value.  After any sequence of [report] and [_reset] calls, [iter] is
    at most 1 and the history holds at most one value; a [report] made
    while a value is held raises AttributeError and changes nothing;
    and the two gain policies answer [False]. *)
Theorem verbose_monitor_never_advances
    (c : monitor_class) (t : float) (n : Z) (self : Monitor)
    (err : list progress) (cs : list call) :
  __init__ c t n true = Return self ->
  iter (mon (perform_all cs (started self err))) <= 1 /\
  (List.length (history (mon (perform_all cs (started self err)))) <= 1)%nat /\
  (forall v, history (mon (perform_all cs (started self err))) <> [] ->
     report v (perform_all cs (started self err))
       = (Raise AttributeError, perform_all cs (started self err))) /\
  (c <> ThresholdMonitor ->
     _check_convergence (mon (perform_all cs (started self err)))
       = Return (VBool false)).
Proof.
  intros Hinit. apply init_fields in Hinit.
  destruct Hinit as (Hc & _ & _ & Hv & Hh & Hi).
  assert (Hinv :
    (fun s => verbose (mon s) = true /\
              ((history (mon s) = [] /\ iter (mon s) = 0) \/
               (exists a, history (mon s) = [a] /\ iter (mon s) = 1)))
      (perform_all cs (started self err))).
  { apply perform_all_invariant.
    - intros [v|] s (Hvs & [[E Hit] | (a & E & Hit)]); cbn [perform].
      + rewrite (report_verbose_first v s Hvs E).
        cbn [snd mon recorded verbose history iter]. rewrite E, Hit.
        split; [exact Hvs|]. right. exists v. split; reflexivity.
      + rewrite report_verbose_later; [| exact Hvs | congruence].
        split; [exact Hvs|]. right. exists a. split; assumption.
      + rewrite reset_spec. cbn. split; [exact Hvs|]. left. split; reflexivity.
      + rewrite reset_spec. cbn. split; [exact Hvs|]. left. split; reflexivity.
    - cbn [started mon]. split; [exact Hv|]. left. split; assumption. }
  cbv beta in Hinv. destruct Hinv as (Hvs & Hcases).
  assert (Hcls : cls (mon (perform_all cs (started self err))) = c).
  { destruct (perform_all_same_config cs (started self err)) as (G & _).
    rewrite G. exact Hc. }
  split; [|split; [|split]].
  - destruct Hcases as [[_ ->] | (a & _ & ->)]; lia.
  - destruct Hcases as [[-> _] | (a & -> & _)]; cbn; lia.
  - intros v Hne. apply report_verbose_later; assumption.
  - intros Hnt. unfold _check_convergence. rewrite Hcls.
    destruct c; [| | congruence];
      destruct Hcases as [[-> _] | (a & -> & _)]; reflexivity.
Qed.

Lemma verbose_monitor_never_advances_witness :
  iter (mon (perform_all
               [CallReport 1%float; CallReport 2%float; CallReport 3%float]
               (started verbose_monitor []))) <= 1 /\
  _check_convergence
    (mon (perform_all
            [CallReport 1%float; CallReport 2%float; CallReport 3%float]
            (started verbose_monitor []))) = Return (VBool false).
Proof.
  destruct (verbose_monitor_never_advances
              ConvergenceMonitor 0.5%float 10 verbose_monitor []
              [CallReport 1%float; CallReport 2%float; CallReport 3%float]
              eq_refl) as (H1 & _ & _ & H4).
  split; [exact H1|]. apply H4. discriminate.
Defined.

(** X4: a monitor built with [verbose=False] completes every [report]
    call and never writes to [sys.stderr]: after any sequence of
    [report] and [_reset] calls the output is what it was at
    construction, and the next [report] returns and prints nothing. *)
Theorem mute_monitor_is_silent
    (c : monitor_class) (t : float) (n : Z) (self : Monitor)
    (err : list progress) (cs : list call) (v : float) :
  __init__ c t n false = Return self ->
  stderr (perform_all cs (started self err)) = err /\
  fst (report v (perform_all cs (started self err))) = Return tt /\
  stderr (snd (report v (perform_all cs (started self err)))) = err.
Proof.
  intros Hinit. apply init_fields in Hinit.
  destruct Hinit as (_ & _ & _ & Hv & _ & _).
  assert (Hinv :
    (fun s => verbose (mon s) = false /\ stderr s = err)
      (perform_all cs (started self err))).
  { apply perform_all_invariant.
    - intros [w|] s (Hvs & He); cbn [perform].
      + rewrite (report_quiet w s Hvs). cbn. split; assumption.
      + rewrite reset_spec. cbn. split; assumption.
    - cbn. split; [exact Hv | reflexivity]. }
  cbv beta in Hinv. destruct Hinv as (Hvs & He).
  rewrite (report_quiet v _ Hvs). cbn [fst snd stderr].
  repeat split; assumption.
Qed.

Lemma mute_monitor_is_silent_witness :
  stderr (perform_all [CallReport 1%float; CallReset; CallReport 2%float]
                      (started quiet_monitor [])) = [] /\
  fst (report 3%float
         (perform_all [CallReport 1%float; CallReset; CallReport 2%float]
                      (started quiet_monitor []))) = Return tt.
Proof.
  destruct (mute_monitor_is_silent
              ConvergenceMonitor 0.5%float 10 quiet_monitor []
              [CallReport 1%float; CallReset; CallReport 2%float] 3%float
              eq_refl) as (H1 & H2 & _).
  split; assumption.
Defined.

(** X5: a monitor built with a negative [n_iter] never stops on the
    iteration limit: after any sequence of [report] and [_reset] calls,
    [converged] is exactly the policy's outcome. *)
Theorem negative_n_iter_never_limits
    (c : monitor_class) (t : float) (n : Z) (vb : bool) (self : Monitor)
    (err : list progress) (cs : list call) :
  __init__ c t n vb = Return self ->
  n < 0 ->
  converged (mon (perform_all cs (started self err)))
    = _check_convergence (mon (perform_all cs (started self err))).
Proof.
  intros Hinit Hneg.
  destruct (history_length_follows_iter c t n vb self err cs Hinit) as [H0 _].
  apply init_fields in Hinit. destruct Hinit as (_ & _ & Hn & _).
  destruct (perform_all_same_config cs (started self err)) as (_ & _ & G & _).
  cbn [started mon] in G.
  apply converged_off_limit. rewrite G, Hn. lia.
Qed.

Lemma negative_n_iter_never_limits_witness :
  converged (mon (perform_all [CallReport 1%float; CallReport 2%float]
                    (started {| cls := ConvergenceMonitor; tol := 0.5%float;
                                n_iter := -1; verbose := false;
                                history := Deque.new; iter := 0 |} [])))
    = Return (VBool false).
Proof.
  rewrite (negative_n_iter_never_limits
             ConvergenceMonitor 0.5%float (-1) false _ []
             [CallReport 1%float; CallReport 2%float] eq_refl ltac:(lia)).
  reflexivity.
Defined.

(** ** The window as the last two reported values *)

Section WindowFacts.

Lemma last2_short (l : list float) :
  (List.length l <= 2)%nat -> last2 l = l.
Proof.
  intros H. unfold last2.
  replace (List.length l - 2)%nat with 0%nat by lia. reflexivity.
Qed.

Lemma last2_snoc2 (pre : list float) (x y : float) :
  last2 (pre ++ [x; y]) = [x; y].
Proof.
  unfold last2. rewrite length_app. cbn [List.length].
  replace (List.length pre + 2 - 2)%nat with (List.length pre) by lia.
  rewrite List.skipn_app, List.skipn_all, Nat.sub_diag. reflexivity.
Qed.

Lemma two_or_more_snoc2 (l : list float) :
  (2 <= List.length l)%nat -> exists pre x y, l = (pre ++ [x; y])%list.
Proof.
  intros H.
  destruct (@exists_last _ l) as (l' & y & ->).
  { intros ->. cbn in H. lia. }
  rewrite length_app in H. cbn in H.
  destruct (@exists_last _ l') as (pre & x & ->).
  { intros ->. cbn in H. lia. }
  exists pre, x, y. rewrite <- List.app_assoc. reflexivity.
Qed.

(** Appending to the window of a list gives the window of the longer
    list. *)
Lemma append_last2 (l : list float) (v : float) :
  Deque.append (last2 l) v = last2 (l ++ [v]).
Proof.
  destruct (Nat.lt_ge_cases (List.length l) 2) as [Hlt | Hge].
  - rewrite (last2_short l) by lia.
    rewrite last2_short by (rewrite length_app; cbn; lia).
    apply append_not_full. exact Hlt.
  - destruct (two_or_more_snoc2 l Hge) as (pre & x & y & ->).
    rewrite last2_snoc2, append_full.
    rewrite <- List.app_assoc. cbn [List.app].
    change [x; y; v] with ([x] ++ [y; v])%list.
    rewrite List.app_assoc. rewrite last2_snoc2. reflexivity.
Qed.

Lemma mute_monitor_tracks (cs : list call) :
  forall s acc,
    verbose (mon s) = false ->
    iter (mon s) = Z.of_nat (List.length acc) ->
    history (mon s) = last2 acc ->
    iter (mon (perform_all cs s))
      = Z.of_nat (List.length (List.fold_left note_call cs acc)) /\
    history (mon (perform_all cs s)) = last2 (List.fold_left note_call cs acc).
Proof.
  induction cs as [|c cs IH]; intros s acc Hv Hi Hh.
  - split; assumption.
  - cbn [perform_all List.fold_left]. apply IH.
    + destruct (perform_same_config c s) as (_ & _ & _ & ->). exact Hv.
    + destruct c as [v|]; cbn [perform note_call].
      * rewrite (report_quiet v s Hv). cbn [snd mon recorded iter].
        rewrite Hi, length_app. cbn. lia.
      * rewrite reset_spec. reflexivity.
    + destruct c as [v|]; cbn [perform note_call].
      * rewrite (report_quiet v s Hv). cbn [snd mon recorded history].
        rewrite Hh. apply append_last2.
      * rewrite reset_spec. reflexivity.
Qed.

End WindowFacts.

(** X6: on a monitor built with [verbose=False], after any sequence of
    [report] and [_reset] calls, [iter] is the number of values reported
    since the last [_reset] and the history is exactly the last two of
    them, in the order they were reported (all of them when there are
    fewer than two). *)
Theorem mute_monitor_window
    (c : monitor_class) (t : float) (n : Z) (self : Monitor)
    (err : list progress) (cs : list call) :
  __init__ c t n false = Return self ->
  iter (mon (perform_all cs (started self err)))
    = Z.of_nat (List.length (values_since_reset cs)) /\
  history (mon (perform_all cs (started self err)))
    = last2 (values_since_reset cs).
Proof.
  intros Hinit. apply init_fields in Hinit.
  destruct Hinit as (_ & _ & _ & Hv & Hh & Hi).
  apply mute_monitor_tracks; cbn [started mon]; assumption.
Qed.

Lemma mute_monitor_window_witness :
  iter (mon (perform_all
               [CallReport 9%float; CallReset; CallReport 1%float;
                CallReport 2%float; CallReport 3%float]
               (started quiet_monitor []))) = 3 /\
  history (mon (perform_all
               [CallReport 9%float; CallReset; CallReport 1%float;
                CallReport 2%float; CallReport 3%float]
               (started quiet_monitor []))) = [2; 3]%float.
Proof.
  destruct (mute_monitor_window
              ConvergenceMonitor 0.5%float 10 quiet_monitor []
              [CallReport 9%float; CallReset; CallReport 1%float;
               CallReport 2%float; CallReport 3%float] eq_refl) as (H1 & H2).
  split; [rewrite H1 | rewrite H2]; reflexivity.
Defined.

(** X7: what a mute monitor answers depends only on the last two values
    reported.  After calls whose reported values since the last
    [_reset] end with [a] then [b], and away from the iteration limit,
    [converged] is: [b - a < tol] for the absolute-gain policy;
    [(b - a) / a < tol] for the relative-gain policy, or
    ZeroDivisionError when [a] is zero; [b >= tol] for the threshold
    policy. *)
Theorem converged_after_last_two
    (c : monitor_class) (t : float) (n : Z) (self : Monitor)
    (err : list progress) (cs : list call) (pre : list float) (a b : float) :
  __init__ c t n false = Return self ->
  values_since_reset cs = (pre ++ [a; b])%list ->
  Z.of_nat (List.length pre) + 2 <> n ->
  converged (mon (perform_all cs (started self err))) =
    match c with
    | ConvergenceMonitor =>
        Return (VBool (PrimFloat.ltb (PrimFloat.sub b a) t))
    | RelativeMonitor =>
        if PrimFloat.eqb a 0%float then Raise ZeroDivisionError
        else Return (VBool (PrimFloat.ltb
                              (PrimFloat.div (PrimFloat.sub b a) a) t))
    | ThresholdMonitor =>
        Return (VBool (float_ge b t))
    end.
Proof.
  intros Hinit Hvals Hn.
  destruct (mute_monitor_window c t n self err cs Hinit) as (Hi & Hh).
  apply init_fields in Hinit. destruct Hinit as (Hc & Ht & Hn0 & _).
  destruct (perform_all_same_config cs (started self err))
    as (Gc & Gt & Gn & _).
  cbn [started mon] in Gc, Gt, Gn.
  rewrite Hvals in Hi, Hh. rewrite last2_snoc2 in Hh.
  rewrite length_app in Hi. cbn [List.length] in Hi.
  rewrite converged_off_limit by (rewrite Gn, Hn0, Hi; lia).
  unfold _check_convergence. rewrite Gc, Hc, Gt, Ht, Hh.
  destruct c; cbn.
  - reflexivity.
  - unfold float_div. destruct (PrimFloat.eqb a 0%float); reflexivity.
  - reflexivity.
Qed.

Lemma converged_after_last_two_witness :
  converged (mon (perform_all
                    [CallReport 5%float; CallReport 10.0%float;
                     CallReport 10.5%float]
                    (started {| cls := RelativeMonitor; tol := 0.1%float;
                                n_iter := 100; verbose := false;
                                history := Deque.new; iter := 0 |} [])))
    = Return (VBool true).
Proof.
  rewrite (converged_after_last_two
             RelativeMonitor 0.1%float 100 _ []
             [CallReport 5%float; CallReport 10.0%float; CallReport 10.5%float]
             [5%float] 10.0%float 10.5%float eq_refl eq_refl ltac:(cbn; lia)).
  reflexivity.
Defined.

(** ** Closed forms of the three policies *)

Section PolicyFacts.

Variable self : Monitor.

Lemma len_three_or_more (a b x : float) (l : list float) :
  (Deque.len (a :: b :: x :: l) =? 2) = false.
Proof. apply Z.eqb_neq. unfold Deque.len. cbn [List.length]. lia. Qed.

Lemma check_absolute :
  cls self = ConvergenceMonitor ->
  _check_convergence self =
    Return (VBool match history self with
                  | [a; b] => PrimFloat.ltb (PrimFloat.sub b a) (tol self)
                  | _ => false
                  end).
Proof.
  intros Hc. unfold _check_convergence. rewrite Hc.
  destruct (history self) as [|a [|b [|x l]]]; try reflexivity.
  unfold py_and. cbn [obind truthy]. rewrite len_three_or_more. reflexivity.
Qed.

Lemma check_relative :
  cls self = RelativeMonitor ->
  _check_convergence self =
    match history self with
    | [a; b] =>
        if PrimFloat.eqb a 0%float then Raise ZeroDivisionError
        else Return (VBool (PrimFloat.ltb
                              (PrimFloat.div (PrimFloat.sub b a) a) (tol self)))
    | _ => Return (VBool false)
    end.
Proof.
  intros Hc. unfold _check_convergence. rewrite Hc.
  destruct (history self) as [|a [|b [|x l]]]; try reflexivity.
  - cbn. unfold float_div. destruct (PrimFloat.eqb a 0%float); reflexivity.
  - rewrite len_three_or_more. reflexivity.
Qed.

Lemma check_threshold_empty :
  cls self = ThresholdMonitor -> history self = [] ->
  _check_convergence self = Return (VDeque []).
Proof.
  intros Hc Hh. unfold _check_convergence. rewrite Hc, Hh. reflexivity.
Qed.

Lemma check_threshold_snoc (older : list float) (x : float) :
  cls self = ThresholdMonitor -> history self = (older ++ [x])%list ->
  _check_convergence self = Return (VBool (float_ge x (tol self))).
Proof.
  intros Hc Hh. unfold _check_convergence, py_and. rewrite Hc, Hh.
  cbn [obind].
  replace (truthy (VDeque (older ++ [x]))) with true
    by (destruct older; reflexivity).
  rewrite getitem_last_app. reflexivity.
Qed.

End PolicyFacts.

(** X8: the only way [converged] can raise.  In every state of every
    monitor, [converged] raises exactly when the monitor is a
    relative-gain monitor away from its iteration limit whose history
    holds two values, the older of which is zero; the exception is then
    ZeroDivisionError.  The absolute-gain and threshold monitors never
    raise. *)
Theorem converged_raises_iff (self : Monitor) (e : exn) :
  converged self = Raise e <->
  e = ZeroDivisionError /\ cls self = RelativeMonitor /\
  iter self <> n_iter self /\
  exists p c, history self = [p; c] /\ PrimFloat.eqb p 0%float = true.
Proof.
  split.
  - intros H.
    destruct (Z.eq_dec (iter self) (n_iter self)) as [E | E].
    { rewrite (converged_at_limit self E) in H. discriminate H. }
    rewrite (converged_off_limit self E) in H.
    destruct (cls self) eqn:Hc.
    + rewrite (check_absolute self Hc) in H. discriminate H.
    + rewrite (check_relative self Hc) in H.
      destruct (history self) as [|a [|b [|x l]]]; try discriminate H.
      destruct (PrimFloat.eqb a 0%float) eqn:Ez; [|discriminate H].
      injection H as <-. repeat split; [exact E|].
      exists a, b. split; [reflexivity | exact Ez].
    + destruct (history self) as [|a l] eqn:Hh.
      * rewrite (check_threshold_empty self Hc Hh) in H. discriminate H.
      * destruct (@nonempty_snoc (a :: l)) as (older & x & Hs); [discriminate|].
        rewrite Hs in Hh.
        rewrite (check_threshold_snoc self older x Hc Hh) in H. discriminate H.
  - intros (-> & Hc & E & p & c & Hh & Hz).
    rewrite (converged_off_limit self E), (check_relative self Hc), Hh, Hz.
    reflexivity.
Qed.

Lemma converged_raises_iff_witness :
  converged {| cls := RelativeMonitor; tol := 0.1%float; n_iter := 100;
               verbose := false; history := [(-0)%float; 1%float]; iter := 2 |}
    = Raise ZeroDivisionError.
Proof.
  apply converged_raises_iff.
  repeat split; [discriminate|].
  exists (-0)%float, 1%float. split; reflexivity.
Defined.

(** X9: what [converged] returns.  In every state, a returned value is
    either a boolean or the empty history; it is the empty history
    exactly for a threshold monitor that holds no value and is not at
    its iteration limit. *)
Theorem converged_result_shape (self : Monitor) :
  (forall p, converged self = Return p ->
     (exists b, p = VBool b) \/ p = VDeque []) /\
  (converged self = Return (VDeque []) <->
   cls self = ThresholdMonitor /\ history self = [] /\
   iter self <> n_iter self).
Proof.
  assert (Hshape : forall p, converged self = Return p ->
            (exists b, p = VBool b) \/
            (p = VDeque [] /\ cls self = ThresholdMonitor /\
             history self = [] /\ iter self <> n_iter self)).
  { intros p H.
    destruct (Z.eq_dec (iter self) (n_iter self)) as [E | E].
    { rewrite (converged_at_limit self E) in H. injection H as <-. eauto. }
    rewrite (converged_off_limit self E) in H.
    destruct (cls self) eqn:Hc.
    - rewrite (check_absolute self Hc) in H. injection H as <-. eauto.
    - rewrite (check_relative self Hc) in H.
      destruct (history self) as [|a [|b [|x l]]];
        try (injection H as <-; eauto).
      destruct (PrimFloat.eqb a 0%float); [discriminate H|].
      injection H as <-. eauto.
    - destruct (history self) as [|a l] eqn:Hh.
      + rewrite (check_threshold_empty self Hc Hh) in H. injection H as <-.
        right. repeat split. exact E.
      + destruct (@nonempty_snoc (a :: l)) as (older & x & Hs); [discriminate|].
        rewrite Hs in Hh.
        rewrite (check_threshold_snoc self older x Hc Hh) in H.
        injection H as <-. eauto. }
  split.
  - intros p H. destruct (Hshape p H) as [Hb | (-> & _)]; [left | right]; auto.
  - split.
    + intros H. destruct (Hshape _ H) as [[b Hb] | (_ & H1 & H2 & H3)].
      * discriminate Hb.
      * repeat split; assumption.
    + intros (Hc & Hh & E).
      rewrite (converged_off_limit self E).
      apply check_threshold_empty; assumption.
Qed.

Lemma converged_result_shape_witness :
  converged {| cls := ThresholdMonitor; tol := 2.5%float; n_iter := 100;
               verbose := false; history := Deque.new; iter := 0 |}
    = Return (VDeque []).
Proof.
  apply converged_result_shape. repeat split. discriminate.
Defined.

(** X10: what a verbose monitor prints.  Whenever a [report] call on a
    monitor with [verbose=True] returns, the history was empty before
    the call and exactly one record was added to [sys.stderr]: its
    iteration number is the new value of [iter], its log probability is
    the reported value, and its delta is NaN. *)
Theorem verbose_report_prints_nan_delta (v : float) (s s' : state) :
  verbose (mon s) = true ->
  report v s = (Return tt, s') ->
  history (mon s) = [] /\
  exists l, stderr s' = (stderr s ++ [l])%list /\
            line_iter l = iter (mon s') /\
            line_logprob l = v /\
            PrimFloat.is_nan (line_delta l) = true.
Proof.
  intros Hv Hr.
  destruct (history (mon s)) as [|a h] eqn:Hh.
  - split; [reflexivity|].
    rewrite (report_verbose_first v s Hv Hh) in Hr. injection Hr as <-.
    eexists. split; [reflexivity|]. cbn.
    repeat split. apply sub_nan_r. reflexivity.
  - rewrite report_verbose_later in Hr; [discriminate | exact Hv | congruence].
Qed.

Lemma verbose_report_prints_nan_delta_witness :
  exists l, stderr verbose_run_1 = [l] /\
            line_iter l = 1 /\ line_logprob l = 1%float /\
            PrimFloat.is_nan (line_delta l) = true.
Proof.
  destruct (verbose_report_prints_nan_delta
              1%float (started verbose_monitor []) verbose_run_1
              eq_refl eq_refl) as (_ & l & H1 & H2 & H3 & H4).
  exists l. repeat split; assumption.
Defined.

(** X11: a NaN log probability is never taken for convergence.  When
    the most recent value of the history is NaN, then away from the
    iteration limit [converged] returns [False], for all three
    policies; the one exception is the relative-gain monitor whose
    older value is zero, which raises ZeroDivisionError. *)
Theorem nan_value_never_converges
    (self : Monitor) (older : list float) (x : float) :
  history self = (older ++ [x])%list ->
  PrimFloat.is_nan x = true ->
  iter self <> n_iter self ->
  converged self = Return (VBool false) \/
  (cls self = RelativeMonitor /\
   (exists p, older = [p] /\ PrimFloat.eqb p 0%float = true) /\
   converged self = Raise ZeroDivisionError).
Proof.
  intros Hh Hx E. rewrite (converged_off_limit self E).
  destruct (cls self) eqn:Hc.
  - left. rewrite (check_absolute self Hc), Hh.
    destruct older as [|a [|b l]]; cbn [List.app].
    + reflexivity.
    + rewrite ltb_nan_l by (apply sub_nan_l; exact Hx). reflexivity.
    + destruct l; reflexivity.
  - rewrite (check_relative self Hc), Hh.
    destruct older as [|a [|b l]]; cbn [List.app].
    + left. reflexivity.
    + destruct (PrimFloat.eqb a 0%float) eqn:Ez.
      * right. repeat split. exists a. split; [reflexivity | exact Ez].
      * left.
        rewrite ltb_nan_l by (apply div_nan_l; apply sub_nan_l; exact Hx).
        reflexivity.
    + left. destruct l; reflexivity.
  - left. rewrite (check_threshold_snoc self older x Hc Hh).
    unfold float_ge. rewrite leb_nan_r by exact Hx. reflexivity.
Qed.

Lemma nan_value_never_converges_witness :
  converged {| cls := ThresholdMonitor; tol := (-1000)%float; n_iter := 100;
               verbose := false; history := [1%float; PrimFloat.nan];
               iter := 2 |}
    = Return (VBool false).
Proof.
  destruct (nan_value_never_converges
              {| cls := ThresholdMonitor; tol := (-1000)%float; n_iter := 100;
                 verbose := false; history := [1%float; PrimFloat.nan];
                 iter := 2 |}
              [1%float] PrimFloat.nan eq_refl eq_refl ltac:(discriminate))
    as [H | (Hc & _)].
  - exact H.
  - discriminate Hc.
Defined.

(** X12: a NaN tolerance disables every policy.  On a monitor whose
    [tol] is NaN, away from the iteration limit, whatever [converged]
    returns is false, so such a monitor can only stop on the iteration
    limit. *)
Theorem nan_tolerance_never_converges (self : Monitor) (p : pyval) :
  PrimFloat.is_nan (tol self) = true ->
  iter self <> n_iter self ->
  converged self = Return p ->
  truthy p = false.
Proof.
  intros Ht E H. rewrite (converged_off_limit self E) in H.
  destruct (cls self) eqn:Hc.
  - rewrite (check_absolute self Hc) in H. injection H as <-.
    destruct (history self) as [|a [|b [|x l]]]; try reflexivity.
    cbn. apply ltb_nan_r. exact Ht.
  - rewrite (check_relative self Hc) in H.
    destruct (history self) as [|a [|b [|x l]]];
      try (injection H as <-; reflexivity).
    destruct (PrimFloat.eqb a 0%float); [discriminate H|].
    injection H as <-. cbn. apply ltb_nan_r. exact Ht.
  - destruct (history self) as [|a l] eqn:Hh.
    + rewrite (check_threshold_empty self Hc Hh) in H. injection H as <-.
      reflexivity.
    + destruct (@nonempty_snoc (a :: l)) as (older & x & Hs); [discriminate|].
      rewrite Hs in Hh.
      rewrite (check_threshold_snoc self older x Hc Hh) in H.
      injection H as <-. cbn. unfold float_ge. apply leb_nan_l. exact Ht.
Qed.

Lemma nan_tolerance_never_converges_witness :
  truthy (VBool (PrimFloat.ltb (PrimFloat.sub 5%float 5%float) PrimFloat.nan))
    = false.
Proof.
  apply (nan_tolerance_never_converges
           {| cls := ConvergenceMonitor; tol := PrimFloat.nan; n_iter := 100;
              verbose := false; history := [5; 5]%float; iter := 2 |}).
  - reflexivity.
  - discriminate.
  - reflexivity.
Defined.

(** X13: a stalled log probability.  When the history holds the same
    finite value twice, the absolute-gain policy answers [0 < tol], and
    so does the relative-gain policy unless the value is zero, in which
    case it raises ZeroDivisionError: a stalled run is taken for
    convergence exactly when the tolerance is positive. *)
Theorem stalled_value_converges_iff_tol_positive (self : Monitor) (b : float) :
  history self = [b; b] ->
  PrimFloat.is_finite b = true ->
  match cls self with
  | ConvergenceMonitor =>
      _check_convergence self = Return (VBool (PrimFloat.ltb 0%float (tol self)))
  | RelativeMonitor =>
      _check_convergence self =
        if PrimFloat.eqb b 0%float then Raise ZeroDivisionError
        else Return (VBool (PrimFloat.ltb 0%float (tol self)))
  | ThresholdMonitor =>
      _check_convergence self = Return (VBool (float_ge b (tol self)))
  end.
Proof.
  intros Hh Hb. destruct (cls self) eqn:Hc.
  - rewrite (check_absolute self Hc), Hh.
    rewrite (ltb_of_zero _ (tol self) false (sub_self b Hb)). reflexivity.
  - rewrite (check_relative self Hc), Hh.
    destruct (PrimFloat.eqb b 0%float) eqn:Ez; [reflexivity|].
    destruct (zero_div_finite _ b false (sub_self b Hb) Hb Ez) as [s' Hs'].
    rewrite (ltb_of_zero _ (tol self) s' Hs'). reflexivity.
  - apply (check_threshold_snoc self [b] b Hc). exact Hh.
Qed.

Lemma stalled_value_converges_iff_tol_positive_witness :
  _check_convergence
    {| cls := ConvergenceMonitor; tol := 0%float; n_iter := 100;
       verbose := false; history := [7.5; 7.5]%float; iter := 2 |}
    = Return (VBool false) /\
  _check_convergence
    {| cls := RelativeMonitor; tol := 0.001%float; n_iter := 100;
       verbose := false; history := [7.5; 7.5]%float; iter := 2 |}
    = Return (VBool true).
Proof.
  split.
  - apply (stalled_value_converges_iff_tol_positive
             {| cls := ConvergenceMonitor; tol := 0%float; n_iter := 100;
                verbose := false; history := [7.5; 7.5]%float; iter := 2 |}
             7.5%float eq_refl eq_refl).
  - apply (stalled_value_converges_iff_tol_positive
             {| cls := RelativeMonitor; tol := 0.001%float; n_iter := 100;
                verbose := false; history := [7.5; 7.5]%float; iter := 2 |}
             7.5%float eq_refl eq_refl).
Defined.

(** X14: the gain policies need two reports.  After any sequence of
    [report] and [_reset] calls on a newly built absolute-gain or
    relative-gain monitor, as long as [iter] is below 2 the policy
    answers [False], so [converged] is just the test
    [iter == n_iter]. *)
Theorem gain_policies_need_two_reports
    (c : monitor_class) (t : float) (n : Z) (vb : bool) (self : Monitor)
    (err : list progress) (cs : list call) :
  __init__ c t n vb = Return self ->
  c <> ThresholdMonitor ->
  iter (mon (perform_all cs (started self err))) < 2 ->
  _check_convergence (mon (perform_all cs (started self err)))
    = Return (VBool false) /\
  converged (mon (perform_all cs (started self err)))
    = Return (VBool (iter (mon (perform_all cs (started self err))) =? n)).
Proof.
  intros Hinit Hc Hlt.
  destruct (history_length_follows_iter c t n vb self err cs Hinit) as (H0 & Hl).
  apply init_fields in Hinit. destruct Hinit as (Hcls & _ & Hn & _).
  destruct (perform_all_same_config cs (started self err)) as (Gc & _ & Gn & _).
  cbn [started mon] in Gc, Gn.
  set (m := mon (perform_all cs (started self err))) in *.
  assert (Hcheck : _check_convergence m = Return (VBool false)).
  { assert (Hlen : (List.length (history m) < 2)%nat) by lia.
    destruct c; [| | congruence].
    - rewrite (check_absolute m) by congruence.
      destruct (history m) as [|a [|b l]]; cbn in Hlen; try reflexivity; lia.
    - rewrite (check_relative m) by congruence.
      destruct (history m) as [|a [|b l]]; cbn in Hlen; try reflexivity; lia. }
  split; [exact Hcheck|].
  destruct (Z.eq_dec (iter m) (n_iter m)) as [E | E].
  - rewrite (converged_at_limit m E).
    rewrite <- Hn, <- Gn. rewrite (proj2 (Z.eqb_eq _ _) E). reflexivity.
  - rewrite (converged_off_limit m E), Hcheck.
    rewrite <- Hn, <- Gn. rewrite (proj2 (Z.eqb_neq _ _) E). reflexivity.
Qed.

Lemma gain_policies_need_two_reports_witness :
  converged (mon (perform_all [CallReport 1%float]
                    (started {| cls := RelativeMonitor; tol := 1000%float;
                                n_iter := 1; verbose := false;
                                history := Deque.new; iter := 0 |} [])))
    = Return (VBool true) /\
  converged (mon (perform_all [CallReport 1%float]
                    (started relative_monitor_3 [])))
    = Return (VBool false).
Proof.
  split.
  - apply (gain_policies_need_two_reports
             RelativeMonitor 1000%float 1 false _ [] [CallReport 1%float]
             eq_refl ltac:(discriminate) ltac:(reflexivity)).
  - apply (gain_policies_need_two_reports
             RelativeMonitor 0.1%float 3 false relative_monitor_3 []
             [CallReport 1%float]
             eq_refl ltac:(discriminate) ltac:(reflexivity)).
Defined.
